(** * F5 iHealth MCP server (src/server.py): shallow embedding and properties

    The Python module keeps one piece of global mutable state, the token
    cache, and talks to two remote endpoints (the token endpoint and the
    iHealth REST API).  We model a call as a function of

    - an environment [Env]: environment variables, the wall clock read by
      [time.time()], the replies of the two endpoints and the file system;
    - a state [St]: the token cache and the trace of HTTP requests issued;

    in a small state and exception monad [M], so that a raised Python
    exception is a value [Exc e] that can be observed at the tool boundary.

    Abstractions: wall-clock time is an integer number of seconds; byte
    strings and Python [str] are both Rocq [string] (ASCII bodies, so
    [response.text] is [response.content] and [len] counts bytes);
    text is UTF-8; [str.upper] maps the ASCII letters and the characters
    whose upper case is ASCII ([upper]), [str.lower] the ASCII letters;
    [json.loads],
    [json.dumps(..., indent=2, default=str)] and the [repr] of containers are
    Section variables; base64 encoding of the Basic credentials is not
    modelled (the trace records the credentials that are encoded). *)

From Stdlib Require Import String Ascii ZArith List Bool Lia.
Import ListNotations.
Local Open Scope string_scope.
Local Open Scope Z_scope.

(** ** Strings as Python handles them *)

(** Python [needle in hay] for strings. *)
Fixpoint str_in (needle hay : string) : bool :=
  if String.prefix needle hay then true
  else match hay with
       | EmptyString => false
       | String _ rest => str_in needle rest
       end.

Definition ascii_upper (c : ascii) : ascii :=
  let n := nat_of_ascii c in
  if (97 <=? n)%nat && (n <=? 122)%nat then ascii_of_nat (n - 32) else c.

Definition ascii_lower (c : ascii) : ascii :=
  let n := nat_of_ascii c in
  if (65 <=? n)%nat && (n <=? 90)%nat then ascii_of_nat (n + 32) else c.

Fixpoint str_map (f : ascii -> ascii) (s : string) : string :=
  match s with
  | EmptyString => EmptyString
  | String c rest => String (f c) (str_map f rest)
  end.

(** The upper case of the ligatures U+FB00..U+FB06 (UTF-8 [EF AC 80..86]),
    by their last byte. *)
Definition ligature_upper (k : nat) : string :=
  match k with
  | 128%nat => "FF" | 129%nat => "FI" | 130%nat => "FL" | 131%nat => "FFI"
  | 132%nat => "FFL" | _ => "ST"
  end.

(** [str.upper] on UTF-8 text.  Besides the ASCII letters it maps the
    non-ASCII characters whose upper case is ASCII: U+00DF to ["SS"],
    U+0131 to ["I"], U+017F to ["S"] and the ligatures U+FB00..U+FB06.  Any
    other non-ASCII character is kept; its upper case in Python is not
    ASCII either, so [upper s] equals an ASCII string exactly when
    [s.upper()] does, and then they are equal. *)
Fixpoint upper (s : string) : string :=
  match s with
  | EmptyString => EmptyString
  | String c rest =>
      let n := nat_of_ascii c in
      match rest with
      | EmptyString => String (ascii_upper c) EmptyString
      | String d rest2 =>
          let m := nat_of_ascii d in
          if (n =? 195)%nat && (m =? 159)%nat then "SS" ++ upper rest2
          else if (n =? 196)%nat && (m =? 177)%nat then "I" ++ upper rest2
          else if (n =? 197)%nat && (m =? 191)%nat then "S" ++ upper rest2
          else match rest2 with
               | String e rest3 =>
                   let k := nat_of_ascii e in
                   if (n =? 239)%nat && (m =? 172)%nat && (128 <=? k)%nat && (k <=? 134)%nat
                   then ligature_upper k ++ upper rest3
                   else String (ascii_upper c) (upper rest)
               | EmptyString => String (ascii_upper c) (upper rest)
               end
      end
  end.

(** [str.lower] on the ASCII letters. *)
Definition lower (s : string) : string := str_map ascii_lower s.

(** The newline character (Rocq strings have no [\n] escape). *)
Definition nl : string := String (ascii_of_nat 10) EmptyString.

Fixpoint uint_to_string (d : Decimal.uint) : string :=
  match d with
  | Decimal.Nil => ""
  | Decimal.D0 d => "0" ++ uint_to_string d
  | Decimal.D1 d => "1" ++ uint_to_string d
  | Decimal.D2 d => "2" ++ uint_to_string d
  | Decimal.D3 d => "3" ++ uint_to_string d
  | Decimal.D4 d => "4" ++ uint_to_string d
  | Decimal.D5 d => "5" ++ uint_to_string d
  | Decimal.D6 d => "6" ++ uint_to_string d
  | Decimal.D7 d => "7" ++ uint_to_string d
  | Decimal.D8 d => "8" ++ uint_to_string d
  | Decimal.D9 d => "9" ++ uint_to_string d
  end.

(** [str(n)] for a Python int. *)
Definition string_of_Z (z : Z) : string :=
  if z <? 0 then "-" ++ uint_to_string (N.to_uint (Z.to_N (- z)))
  else uint_to_string (N.to_uint (Z.to_N z)).

(** [os.path.basename]: the part after the last ['/']. *)
Fixpoint basename_aux (s acc : string) : string :=
  match s with
  | EmptyString => acc
  | String c rest =>
      if Ascii.eqb c "/"%char then basename_aux rest ""
      else basename_aux rest (acc ++ String c EmptyString)
  end.
Definition basename (s : string) : string := basename_aux s "".

(** ** Python values produced by [json.loads] and by the code's dicts *)

Local Unset Elimination Schemes.

Inductive Json : Type :=
| JNull
| JBool (b : bool)
| JInt (n : Z)
| JStr (s : string)
| JArr (xs : list Json)
| JObj (kvs : list (string * Json)).

Local Set Elimination Schemes.

(** [d.get(k)] on a dict given as its list of items. *)
Fixpoint dict_get (k : string) (kvs : list (string * Json)) : option Json :=
  match kvs with
  | [] => None
  | (k', v) :: rest => if String.eqb k k' then Some v else dict_get k rest
  end.

(** Python truthiness. *)
Definition py_truthy (v : Json) : bool :=
  match v with
  | JNull => false
  | JBool b => b
  | JInt n => negb (n =? 0)
  | JStr s => negb (String.eqb s "")
  | JArr xs => negb (Nat.eqb (List.length xs) 0)
  | JObj kvs => negb (Nat.eqb (List.length kvs) 0)
  end.

(** ** Exceptions, environment, state *)

(** The Python exceptions that reach the code's handlers. *)
Inductive exn : Type :=
| ValueError (msg : string)
| HTTPStatusError (status : Z) (body : string)   (** [httpx.HTTPStatusError] *)
| OtherExn (msg : string).                      (** any other [Exception] *)

(** [str(e)]; the text httpx gives an [HTTPStatusError] is reduced to its
    status (no handler of the code renders it). *)
Definition exn_str (e : exn) : string :=
  match e with
  | ValueError m => m
  | HTTPStatusError st _ => "HTTP error " ++ string_of_Z st
  | OtherExn m => m
  end.

(** An [httpx.Response]: status, the [content-type] header (the default
    [""] when absent) and the body. *)
Record response : Type := mk_response {
  r_status : Z;
  r_content_type : string;
  r_body : string
}.

(** What a call to [client.get]/[post]/[put]/[delete] gives: a response,
    or a transport exception (connection failure, timeout, TLS error). *)
Inductive http_outcome : Type :=
| HResp (r : response)
| HFail (msg : string).

(** A request to the REST API as [make_api_request] builds it. *)
Record api_request : Type := mk_api_request {
  rq_method : string;                            (** GET, POST, PUT or DELETE *)
  rq_url : string;
  rq_authorization : string;
  rq_accept : string;
  rq_user_agent : string;
  rq_data : option (list (string * string));      (** form fields, if sent *)
  rq_files : list (string * string)               (** multipart field, file name *)
}.

(** One HTTP request issued by the process. *)
Inductive net_event : Type :=
| NTokenPost (credentials : string)   (** POST to [TOKEN_URL] *)
| NApi (rq : api_request).            (** request to the REST API *)

Record Env : Type := mk_env {
  env_client_id : string;          (** [os.environ.get("F5_IHEALTH_CLIENT_ID", "")] *)
  env_client_secret : string;      (** [os.environ.get("F5_IHEALTH_CLIENT_SECRET", "")] *)
  env_now : Z;                     (** [time.time()] *)
  env_token_reply : http_outcome;  (** reply of the token endpoint *)
  env_api_reply : api_request -> http_outcome;
  env_file_exists : string -> bool;            (** [os.path.exists] *)
  env_open_error : string -> option string     (** [open(p, "rb")] failure, if any *)
}.

(** [_token_cache] and the requests issued so far. *)
Record St : Type := mk_st {
  cache_token : Json;
  cache_expires_at : Z;
  trace : list net_event
}.

(** [_token_cache = {"token": None, "expires_at": 0}] *)
Definition st_init : St := mk_st JNull 0 [].

Inductive Res (A : Type) : Type :=
| Ok (a : A)
| Exc (e : exn).
Arguments Ok {A} a.
Arguments Exc {A} e.

(** ** The state and exception monad *)

Definition M (A : Type) : Type := Env -> St -> Res A * St.

Definition ret {A} (a : A) : M A := fun _ st => (Ok a, st).
Definition raise {A} (e : exn) : M A := fun _ st => (Exc e, st).
Definition bind {A B} (m : M A) (k : A -> M B) : M B :=
  fun env st =>
    match m env st with
    | (Ok a, st') => k a env st'
    | (Exc e, st') => (Exc e, st')
    end.
(** [try: m except e: h(e)] *)
Definition try_catch {A} (m : M A) (h : exn -> M A) : M A :=
  fun env st =>
    match m env st with
    | (Ok a, st') => (Ok a, st')
    | (Exc e, st') => h e env st'
    end.
Definition ask : M Env := fun env st => (Ok env, st).
Definition get_st : M St := fun _ st => (Ok st, st).
Definition put_st (st : St) : M unit := fun _ _ => (Ok tt, st).
Definition log_net (ev : net_event) : M unit :=
  fun _ st => (Ok tt, mk_st (cache_token st) (cache_expires_at st) (trace st ++ [ev])).

Notation "x <- m ;; k" := (bind m (fun x => k))
  (at level 61, m at next level, right associativity).
Notation "m ;; k" := (bind m (fun _ => k))
  (at level 61, right associativity).

(** ** httpx helpers *)

(** [response.raise_for_status()]: raises unless the status is 2xx. *)
Definition raise_for_status (r : response) : M unit :=
  if (200 <=? r_status r) && (r_status r <? 300) then ret tt
  else raise (HTTPStatusError (r_status r) (r_body r)).

(** The response of a request, or the transport exception it raised. *)
Definition http_result (o : http_outcome) : M response :=
  match o with
  | HResp r => ret r
  | HFail msg => raise (OtherExn msg)
  end.

(** The type name Python prints in a [TypeError]. *)
Definition py_type_name (v : Json) : string :=
  match v with
  | JNull => "NoneType"
  | JBool _ => "bool"
  | JInt _ => "int"
  | JStr _ => "str"
  | JArr _ => "list"
  | JObj _ => "dict"
  end.

(** [v[k]] for a string key [k]. *)
Definition subscript (v : Json) (k : string) : M Json :=
  match v with
  | JObj kvs =>
      match dict_get k kvs with
      | Some x => ret x
      | None => raise (OtherExn ("'" ++ k ++ "'"))          (** KeyError *)
      end
  | JStr _ => raise (OtherExn "string indices must be integers, not 'str'")
  | JArr _ => raise (OtherExn "list indices must be integers or slices, not str")
  | v => raise (OtherExn ("'" ++ py_type_name v ++ "' object is not subscriptable"))
  end.

(** [t + v] for the float [t] returned by [time.time()]. *)
Definition py_add_time (t : Z) (v : Json) : M Z :=
  match v with
  | JInt n => ret (t + n)
  | JBool b => ret (t + if b then 1 else 0)
  | v => raise (OtherExn ("unsupported operand type(s) for +: 'float' and '"
                          ++ py_type_name v ++ "'"))
  end.

Definition set_cache_token (v : Json) : M unit :=
  fun _ st => (Ok tt, mk_st v (cache_expires_at st) (trace st)).
Definition set_cache_expires_at (t : Z) : M unit :=
  fun _ st => (Ok tt, mk_st (cache_token st) t (trace st)).

Definition TOKEN_URL : string :=
  "https://identity.account.f5.com/oauth2/ausp95ykc80HOU7SQ357/v1/token".
Definition API_BASE_URL : string := "https://ihealth2-api.f5.com/qkview-analyzer/api".
Definition USER_AGENT : string := "F5iHealthMCPServer/1.0".
Definition ACCEPT_HEADER : string := "application/vnd.f5.ihealth.api".

Definition credentials_msg : string :=
  "F5_IHEALTH_CLIENT_ID and F5_IHEALTH_CLIENT_SECRET environment variables are required".

Section Server.

(** [json.loads]: the document, or the text of the [json.JSONDecodeError]
    it raises on a text that is not JSON (the message depends on the text,
    e.g. ["Expecting value: line 1 column 1 (char 0)"]). *)
Variable json_loads : string -> Json + string.

(** [response.json()] *)
Definition response_json (r : response) : M Json :=
  match json_loads (r_body r) with
  | inl j => ret j
  | inr msg => raise (OtherExn msg)
  end.

(** ** [get_credentials] *)
Definition get_credentials : M (string * string) :=
  env <- ask ;;
  let client_id := env_client_id env in
  let client_secret := env_client_secret env in
  if String.eqb client_id "" || String.eqb client_secret "" then
    raise (ValueError credentials_msg)
  else ret (client_id, client_secret).

(** ** [get_auth_token] *)
Definition get_auth_token : M Json :=
  env <- ask ;;
  st <- get_st ;;
  let current_time := env_now env in
  if py_truthy (cache_token st) && (current_time <? cache_expires_at st - 60) then
    ret (cache_token st)
  else
    creds <- get_credentials ;;
    let credentials := fst creds ++ ":" ++ snd creds in
    try_catch
      (log_net (NTokenPost credentials) ;;
       response <- http_result (env_token_reply env) ;;
       raise_for_status response ;;
       token_data <- response_json response ;;
       access_token <- subscript token_data "access_token" ;;
       set_cache_token access_token ;;
       let expires_in :=
         match token_data with
         | JObj kvs => match dict_get "expires_in" kvs with
                       | Some v => v
                       | None => JInt 1800
                       end
         | _ => JInt 1800
         end in
       expires_at <- py_add_time current_time expires_in ;;
       set_cache_expires_at expires_at ;;
       st' <- get_st ;;
       ret (cache_token st'))
      (fun e =>
         match e with
         | HTTPStatusError status _ =>
             raise (ValueError ("Authentication failed: " ++ string_of_Z status))
         | e => raise (ValueError ("Authentication failed: " ++ exn_str e))
         end).

(** [str(v)] of a list or dict (Python's [repr] of its items). *)
Variable py_repr : Json -> string.

(** [json.dumps(data, indent=2, default=str)] *)
Variable json_dumps : Json -> string.

(** [str(v)], as an f-string renders [v]. *)
Definition py_str (v : Json) : string :=
  match v with
  | JNull => "None"
  | JBool true => "True"
  | JBool false => "False"
  | JInt n => string_of_Z n
  | JStr s => s
  | v => py_repr v
  end.

(** ** [make_api_request] *)

(** Issue one request to the REST API: it is recorded in the trace and
    answered by the environment. *)
Definition send (rq : api_request) : M response :=
  log_net (NApi rq) ;;
  env <- ask ;;
  http_result (env_api_reply env rq).

Definition processing_msg : Json :=
  JObj [("status", JStr "processing");
        ("message", JStr "Request accepted, processing in progress. Retry in 10 seconds.")].

Definition binary_msg : string := "Binary content retrieved successfully".

(** Lines 101-112 of [make_api_request]: what is done with the response. *)
Definition classify_response (response : response) : M Json :=
  if r_status response =? 202 then ret processing_msg
  else
    raise_for_status response ;;
    let content_type := r_content_type response in
    if str_in "application/json" content_type
       || str_in "application/vnd.f5.ihealth.api+json" content_type then
      response_json response
    else if str_in "application/xml" content_type || str_in "text/xml" content_type then
      ret (JObj [("xml_content", JStr (r_body response))])
    else if str_in "application/octet-stream" content_type then
      ret (JObj [("binary_size", JInt (Z.of_nat (String.length (r_body response))));
                 ("message", JStr binary_msg)])
    else ret (JObj [("content", JStr (r_body response))]).

(** Lines 113-118 of [make_api_request]: the two [except] clauses. *)
Definition request_failed (e : exn) : M Json :=
  match e with
  | HTTPStatusError status body =>
      ret (JObj [("error", JStr ("API request failed: " ++ string_of_Z status));
                 ("details", JStr body)])
  | e => ret (JObj [("error", JStr ("API request failed: " ++ exn_str e))])
  end.

Definition make_api_request (method endpoint accept_type : string)
    (data : option (list (string * string))) (files : list (string * string)) : M Json :=
  token <- get_auth_token ;;
  let accept := if String.eqb accept_type "" then ACCEPT_HEADER else accept_type in
  let authorization := "Bearer " ++ py_str token in
  let url := API_BASE_URL ++ endpoint in
  let request m d f := mk_api_request m url authorization accept USER_AGENT d f in
  try_catch
    (response <-
       (if String.eqb (upper method) "GET" then send (request "GET" None [])
        else if String.eqb (upper method) "POST" then
          match files with
          | [] => send (request "POST" data [])
          | _ => send (request "POST" data files)
          end
        else if String.eqb (upper method) "PUT" then send (request "PUT" data [])
        else if String.eqb (upper method) "DELETE" then send (request "DELETE" None [])
        else raise (ValueError ("Unsupported HTTP method: " ++ method))) ;;
     classify_response response)
    request_failed.

(** ** [format_response] *)
Definition format_response (data : Json) : string :=
  match data with
  | JObj kvs =>
      match dict_get "error" kvs with
      | Some err =>
          "Error: " ++ py_str err ++ nl ++ "Details: "
          ++ match dict_get "details" kvs with
             | Some d => py_str d
             | None => "No additional details"
             end
      | None => json_dumps data
      end
  | _ => py_str data
  end.

(** [result = make_api_request(...); return format_response(result)] *)
Definition request_and_format (method endpoint accept_type : string)
    (data : option (list (string * string))) (files : list (string * string)) : M string :=
  result <- make_api_request method endpoint accept_type data files ;;
  ret (format_response result).


(** ** The tools *)

(** [if v: data[k] = v] *)
Definition opt_field (k v : string) : list (string * string) :=
  if String.eqb v "" then [] else [(k, v)].

Definition qkview_id_required : string := "Error: qkview_id parameter is required".

Definition list_qkviews : M string :=
  request_and_format "GET" "/qkviews" "" None [].

Definition upload_qkview (file_path description visible_in_gui f5_support_case
    share_with_case_owner : string) : M string :=
  if String.eqb file_path "" then ret "Error: file_path parameter is required"
  else
    env <- ask ;;
    if negb (env_file_exists env file_path) then
      ret ("Error: File not found: " ++ file_path)
    else
      try_catch
        (match env_open_error env file_path with
         | Some msg => raise (OtherExn msg)
         | None =>
             let files := [("qkview", basename file_path)] in
             let data := (opt_field "description" description
                         ++ opt_field "visible_in_gui" visible_in_gui
                         ++ opt_field "f5_support_case" f5_support_case
                         ++ opt_field "share_with_case_owner" share_with_case_owner)%list in
             result <- make_api_request "POST" "/qkviews" "" (Some data) files ;;
             ret (format_response result)
         end)
        (fun e => ret ("Error uploading QKView: " ++ exn_str e)).

Definition delete_qkview (qkview_id : string) : M string :=
  if String.eqb qkview_id "" then ret qkview_id_required
  else request_and_format "DELETE" ("/qkviews/" ++ qkview_id) "" None [].

Definition delete_all_qkviews : M string :=
  request_and_format "DELETE" "/qkviews" "" None [].

Definition get_qkview_metadata (qkview_id : string) : M string :=
  if String.eqb qkview_id "" then ret qkview_id_required
  else request_and_format "GET" ("/qkviews/" ++ qkview_id) "" None [].

Definition update_qkview_metadata (qkview_id description visible_in_gui
    f5_support_case non_f5_case : string) : M string :=
  if String.eqb qkview_id "" then ret qkview_id_required
  else
    let data := (opt_field "description" description
                ++ opt_field "visible_in_gui" visible_in_gui
                ++ opt_field "f5_support_case" f5_support_case
                ++ opt_field "non_f5_case" non_f5_case)%list in
    match data with
    | [] => ret "Error: At least one metadata field must be provided to update"
    | _ => request_and_format "PUT" ("/qkviews/" ++ qkview_id) "" (Some data) []
    end.

(** [format_map.get(key, default)] *)
Definition format_map_get (key default : string) : string :=
  if String.eqb key "json" then "application/vnd.f5.ihealth.api+json"
  else if String.eqb key "xml" then "application/vnd.f5.ihealth.api+xml"
  else if String.eqb key "pdf" then "application/pdf"
  else if String.eqb key "csv" then "text/csv"
  else default.

Definition get_qkview_diagnostics (qkview_id diagnostic_set output_format : string)
    : M string :=
  if String.eqb qkview_id "" then ret qkview_id_required
  else
    let endpoint := "/qkviews/" ++ qkview_id ++ "/diagnostics" in
    let endpoint :=
      if existsb (String.eqb diagnostic_set) ["hit"; "miss"]
      then endpoint ++ "?set=" ++ diagnostic_set else endpoint in
    let accept_type :=
      format_map_get (lower output_format) "application/vnd.f5.ihealth.api+json" in
    request_and_format "GET" endpoint accept_type None [].

Definition get_diagnostics_hits (qkview_id : string) : M string :=
  if String.eqb qkview_id "" then ret qkview_id_required
  else request_and_format "GET" ("/qkviews/" ++ qkview_id ++ "/diagnostics?set=hit") "" None [].

Definition get_diagnostics_misses (qkview_id : string) : M string :=
  if String.eqb qkview_id "" then ret qkview_id_required
  else request_and_format "GET" ("/qkviews/" ++ qkview_id ++ "/diagnostics?set=miss") "" None [].

Definition list_qkview_files (qkview_id : string) : M string :=
  if String.eqb qkview_id "" then ret qkview_id_required
  else request_and_format "GET" ("/qkviews/" ++ qkview_id ++ "/files") "" None [].

Definition get_qkview_file (qkview_id file_hash : string) : M string :=
  if String.eqb qkview_id "" then ret qkview_id_required
  else if String.eqb file_hash "" then ret "Error: file_hash parameter is required"
  else request_and_format "GET" ("/qkviews/" ++ qkview_id ++ "/files/" ++ file_hash)
         "application/octet-stream" None [].

Definition download_original_qkview (qkview_id : string) : M string :=
  if String.eqb qkview_id "" then ret qkview_id_required
  else request_and_format "GET" ("/qkviews/" ++ qkview_id ++ "/files/qkview")
         "application/octet-stream" None [].

Definition list_available_commands (qkview_id : string) : M string :=
  if String.eqb qkview_id "" then ret qkview_id_required
  else request_and_format "GET" ("/qkviews/" ++ qkview_id ++ "/commands") "" None [].

Definition get_command_output (qkview_id command_name : string) : M string :=
  if String.eqb qkview_id "" then ret qkview_id_required
  else if String.eqb command_name "" then ret "Error: command_name parameter is required"
  else request_and_format "GET" ("/qkviews/" ++ qkview_id ++ "/commands/" ++ command_name)
         "" None [].

Definition get_bigip_info (qkview_id : string) : M string :=
  if String.eqb qkview_id "" then ret qkview_id_required
  else request_and_format "GET" ("/qkviews/" ++ qkview_id ++ "/bigip") "" None [].

Definition get_bigip_slot_info (qkview_id slot_number : string) : M string :=
  if String.eqb qkview_id "" then ret qkview_id_required
  else request_and_format "GET" ("/qkviews/" ++ qkview_id ++ "/bigip/" ++ slot_number)
         "" None [].

Definition get_hardware_info (qkview_id slot_number : string) : M string :=
  if String.eqb qkview_id "" then ret qkview_id_required
  else request_and_format "GET"
         ("/qkviews/" ++ qkview_id ++ "/bigip/" ++ slot_number ++ "/hardware") "" None [].

Definition get_software_info (qkview_id slot_number : string) : M string :=
  if String.eqb qkview_id "" then ret qkview_id_required
  else request_and_format "GET"
         ("/qkviews/" ++ qkview_id ++ "/bigip/" ++ slot_number ++ "/software") "" None [].

Definition get_license_info (qkview_id slot_number : string) : M string :=
  if String.eqb qkview_id "" then ret qkview_id_required
  else request_and_format "GET"
         ("/qkviews/" ++ qkview_id ++ "/bigip/" ++ slot_number ++ "/license") "" None [].

Definition get_api_info : M string :=
  request_and_format "GET" "/" "" None [].

Definition search_qkview_logs (qkview_id search_term : string) : M string :=
  if String.eqb qkview_id "" then ret qkview_id_required
  else if String.eqb search_term "" then ret "Error: search_term parameter is required"
  else request_and_format "GET" ("/qkviews/" ++ qkview_id ++ "/logs?search=" ++ search_term)
         "" None [].

Definition validate_credentials : M string :=
  try_catch
    (token <- get_auth_token ;;
     if py_truthy token
     then ret "Success: F5 iHealth API credentials are valid and authentication successful."
     else ret "Error: Failed to obtain auth token")
    (fun e =>
       match e with
       | ValueError m => ret ("Error: " ++ m)
       | e => ret ("Error validating credentials: " ++ exn_str e)
       end).

(** The tool surface: one constructor per [@mcp.tool()], with its string
    parameters in the order of the Python signature. *)
Inductive tool_call : Type :=
| ListQkviews
| UploadQkview (file_path description visible_in_gui f5_support_case
                share_with_case_owner : string)
| DeleteQkview (qkview_id : string)
| DeleteAllQkviews
| GetQkviewMetadata (qkview_id : string)
| UpdateQkviewMetadata (qkview_id description visible_in_gui f5_support_case
                        non_f5_case : string)
| GetQkviewDiagnostics (qkview_id diagnostic_set output_format : string)
| GetDiagnosticsHits (qkview_id : string)
| GetDiagnosticsMisses (qkview_id : string)
| ListQkviewFiles (qkview_id : string)
| GetQkviewFile (qkview_id file_hash : string)
| DownloadOriginalQkview (qkview_id : string)
| ListAvailableCommands (qkview_id : string)
| GetCommandOutput (qkview_id command_name : string)
| GetBigipInfo (qkview_id : string)
| GetBigipSlotInfo (qkview_id slot_number : string)
| GetHardwareInfo (qkview_id slot_number : string)
| GetSoftwareInfo (qkview_id slot_number : string)
| GetLicenseInfo (qkview_id slot_number : string)
| GetApiInfo
| SearchQkviewLogs (qkview_id search_term : string)
| ValidateCredentials.

(** The host invoking a tool. *)
Definition run_tool (tc : tool_call) : M string :=
  match tc with
  | ListQkviews => list_qkviews
  | UploadQkview p d v c s => upload_qkview p d v c s
  | DeleteQkview q => delete_qkview q
  | DeleteAllQkviews => delete_all_qkviews
  | GetQkviewMetadata q => get_qkview_metadata q
  | UpdateQkviewMetadata q d v c n => update_qkview_metadata q d v c n
  | GetQkviewDiagnostics q d f => get_qkview_diagnostics q d f
  | GetDiagnosticsHits q => get_diagnostics_hits q
  | GetDiagnosticsMisses q => get_diagnostics_misses q
  | ListQkviewFiles q => list_qkview_files q
  | GetQkviewFile q h => get_qkview_file q h
  | DownloadOriginalQkview q => download_original_qkview q
  | ListAvailableCommands q => list_available_commands q
  | GetCommandOutput q c => get_command_output q c
  | GetBigipInfo q => get_bigip_info q
  | GetBigipSlotInfo q n => get_bigip_slot_info q n
  | GetHardwareInfo q n => get_hardware_info q n
  | GetSoftwareInfo q n => get_software_info q n
  | GetLicenseInfo q n => get_license_info q n
  | GetApiInfo => get_api_info
  | SearchQkviewLogs q t => search_qkview_logs q t
  | ValidateCredentials => validate_credentials
  end.

End Server.

(** The [qkview_id] argument of the tools that take one. *)
Definition qkview_id_param (tc : tool_call) : option string :=
  match tc with
  | ListQkviews | UploadQkview _ _ _ _ _ | DeleteAllQkviews | GetApiInfo
  | ValidateCredentials => None
  | DeleteQkview q | GetQkviewMetadata q | UpdateQkviewMetadata q _ _ _ _
  | GetQkviewDiagnostics q _ _ | GetDiagnosticsHits q | GetDiagnosticsMisses q
  | ListQkviewFiles q | GetQkviewFile q _ | DownloadOriginalQkview q
  | ListAvailableCommands q | GetCommandOutput q _ | GetBigipInfo q
  | GetBigipSlotInfo q _ | GetHardwareInfo q _ | GetSoftwareInfo q _
  | GetLicenseInfo q _ | SearchQkviewLogs q _ => Some q
  end.

(** Python [method.upper() in ("GET", "POST", "PUT", "DELETE")]. *)
Definition supported_method (method : string) : bool :=
  existsb (String.eqb (upper method)) ["GET"; "POST"; "PUT"; "DELETE"].

(** ** Concrete instances used to run the model *)

(** A [json.loads] that rejects every text, with the message it gives
    for an empty one. *)
Definition no_json (_ : string) : Json + string :=
  inr "Expecting value: line 1 column 1 (char 0)".
Definition repr0 (_ : Json) : string := "<repr>".
Definition dumps0 (_ : Json) : string := "<json>".

(** An environment whose API answers every request with [r]. *)
Definition env_answering (cid secret : string) (now : Z) (r : response) : Env :=
  mk_env cid secret now (HFail "token endpoint unreachable") (fun _ => HResp r)
         (fun _ => false) (fun _ => None).

(** A cache holding the token ["tok"], valid until [exp]. *)
Definition st_cached (exp : Z) : St := mk_st (JStr "tok") exp [].

(** ** The diagnostics request as the spec describes it (for C8)

    The spec: [diagnostic_set] "hit" or "miss" appends [?set=<value>] to
    [/qkviews/{id}/diagnostics]; [output_format] json, xml, pdf or csv
    (case-insensitively) selects the corresponding media type, anything else
    the default JSON vendor media type. *)
Definition spec_diagnostics_endpoint (qkview_id diagnostic_set : string) : string :=
  "/qkviews/" ++ qkview_id ++ "/diagnostics"
  ++ (if String.eqb diagnostic_set "hit" || String.eqb diagnostic_set "miss"
      then "?set=" ++ diagnostic_set else "").

Definition spec_diagnostics_accept (output_format : string) : string :=
  let f := lower output_format in
  if String.eqb f "json" then "application/vnd.f5.ihealth.api+json"
  else if String.eqb f "xml" then "application/vnd.f5.ihealth.api+xml"
  else if String.eqb f "pdf" then "application/pdf"
  else if String.eqb f "csv" then "text/csv"
  else "application/vnd.f5.ihealth.api+json".

(** ** The requests of one tool call

    A tool call issues at most one token POST and at most one API request,
    the token POST first. *)
Inductive one_call_trace : list net_event -> Prop :=
| oct_none : one_call_trace []
| oct_token (c : string) : one_call_trace [NTokenPost c]
| oct_api (rq : api_request) : one_call_trace [NApi rq]
| oct_both (c : string) (rq : api_request) : one_call_trace [NTokenPost c; NApi rq].

(** [st'] follows [st] by one tool call's requests, and the token cache
    is only written when a token POST was made. *)
Definition one_call_step (st st' : St) : Prop :=
  exists ext,
    trace st' = (trace st ++ ext)%list /\ one_call_trace ext /\
    ((forall c, ~ In (NTokenPost c) ext) ->
     cache_token st' = cache_token st /\ cache_expires_at st' = cache_expires_at st).

(** * Properties *)

Section Properties.

Variable json_loads : string -> Json + string.
Variable py_repr : Json -> string.
Variable json_dumps : Json -> string.

(** ** The token exchange path *)

(** [get_credentials] reads the environment and changes nothing. *)
Lemma get_credentials_spec (env : Env) (st : St) :
  get_credentials env st =
  (if String.eqb (env_client_id env) "" || String.eqb (env_client_secret env) ""
   then Exc (ValueError credentials_msg)
   else Ok (env_client_id env, env_client_secret env), st).
Proof.
  unfold get_credentials, bind, ask.
  destruct (String.eqb (env_client_id env) "" || String.eqb (env_client_secret env) "");
    reflexivity.
Qed.

(** ** C2 *)

(** C2: [get_auth_token] answers from the cache exactly when the cached
    token is truthy (a non-empty string) and [now < expires_at - 60]; the
    state is then unchanged: no request, no cache write.  Otherwise it does
    not answer from the cache: it reads the credentials (raising the
    configuration error, with no request, when one is empty) and performs
    one token exchange, recorded in the trace, and a token it returns is
    the one the exchange stored. *)
Theorem get_auth_token_freshness (env : Env) (st : St) :
  (py_truthy (cache_token st) = true -> env_now env < cache_expires_at st - 60 ->
     get_auth_token json_loads env st = (Ok (cache_token st), st)) /\
  (~ (py_truthy (cache_token st) = true /\ env_now env < cache_expires_at st - 60) ->
     ((env_client_id env = "" \/ env_client_secret env = "") ->
        get_auth_token json_loads env st = (Exc (ValueError credentials_msg), st)) /\
     (env_client_id env <> "" -> env_client_secret env <> "" ->
        trace (snd (get_auth_token json_loads env st))
          = app (trace st) [NTokenPost (env_client_id env ++ ":" ++ env_client_secret env)] /\
        (forall t, fst (get_auth_token json_loads env st) = Ok t ->
           cache_token (snd (get_auth_token json_loads env st)) = t))).
Proof.
  split.
  - intros Htok Hnow.
    unfold get_auth_token, bind, ask, get_st.
    rewrite Htok, (proj2 (Z.ltb_lt _ _) Hnow). reflexivity.
  - intros Hstale.
    assert (Hcond : py_truthy (cache_token st) && (env_now env <? cache_expires_at st - 60)
                    = false).
    { destruct (py_truthy (cache_token st)) eqn:Ht; [| reflexivity].
      destruct (env_now env <? cache_expires_at st - 60) eqn:Hl; [| reflexivity].
      exfalso. apply Hstale. split; [reflexivity | apply Z.ltb_lt; exact Hl]. }
    unfold get_auth_token, bind, ask, get_st.
    rewrite Hcond, get_credentials_spec.
    split.
    + intros Hempty.
      replace (String.eqb (env_client_id env) "" || String.eqb (env_client_secret env) "")
        with true; [reflexivity |].
      destruct Hempty as [H | H]; rewrite H;
        destruct (String.eqb (env_client_id env) ""); reflexivity.
    + intros Hid Hsec.
      replace (String.eqb (env_client_id env) "" || String.eqb (env_client_secret env) "")
        with false
        by (apply eq_sym, orb_false_iff; split; apply String.eqb_neq; assumption).
      unfold try_catch, log_net, http_result, raise_for_status, response_json, subscript,
        set_cache_token, py_add_time, set_cache_expires_at, ret, raise.
      cbn [fst snd trace cache_token].
      destruct (env_token_reply env) as [r | msg];
        [| split; [reflexivity | discriminate]].
      destruct ((200 <=? r_status r) && (r_status r <? 300));
        [| split; [reflexivity | discriminate]].
      destruct (json_loads (r_body r)) as [j | jerr]; [| split; [reflexivity | discriminate]].
      destruct j as [| b | n | s | xs | kvs];
        try (split; [reflexivity | discriminate]).
      destruct (dict_get "access_token" kvs) as [tok |];
        [| split; [reflexivity | discriminate]].
      destruct (match dict_get "expires_in" kvs with Some v => v | None => JInt 1800 end)
        as [| b | n | s | xs | kvs'];
        try (split; [reflexivity | discriminate]);
        (split; [reflexivity | intros t Ht; inversion Ht; reflexivity]).
Qed.

(** ** The gateway *)

(** [make_api_request] starts with [get_auth_token]: when it raises, the
    gateway raises the same exception. *)
Lemma make_api_request_auth_exc (env : Env) (st st1 : St) (e : exn)
    (method endpoint accept_type : string) (data : option (list (string * string)))
    (files : list (string * string)) :
  get_auth_token json_loads env st = (Exc e, st1) ->
  make_api_request json_loads py_repr method endpoint accept_type data files env st
  = (Exc e, st1).
Proof.
  intros Hauth. unfold make_api_request, bind at 1. rewrite Hauth. reflexivity.
Qed.

Local Ltac finish_reply :=
  unfold send, bind, log_net, ask, http_result;
  match goal with H : forall rq, env_api_reply _ rq = _ |- _ => rewrite H end;
  unfold ret;
  match goal with H : forall env' st', classify_response _ _ env' st' = _ |- _ =>
    rewrite H end;
  match goal with |- _ = match ?res with _ => _ end =>
    destruct res as [j | e]; [reflexivity | destruct e; reflexivity] end.

(** With a token in hand and a supported method, the gateway sends one
    request and its result is the classification of the reply, an
    exception of which goes to the [except] clauses. *)
Lemma make_api_request_reply (env : Env) (st st1 : St) (tok : Json) (r : response)
    (res : Res Json) (method endpoint accept_type : string)
    (data : option (list (string * string))) (files : list (string * string)) :
  get_auth_token json_loads env st = (Ok tok, st1) ->
  supported_method method = true ->
  (forall rq, env_api_reply env rq = HResp r) ->
  (forall env' st', classify_response json_loads r env' st' = (res, st')) ->
  fst (make_api_request json_loads py_repr method endpoint accept_type data files env st)
  = match res with
    | Ok j => Ok j
    | Exc e => fst (request_failed e env st1)
    end.
Proof.
  intros Hauth Hmeth Hreply Hclass.
  unfold make_api_request, bind at 1. rewrite Hauth.
  unfold supported_method in Hmeth. simpl in Hmeth.
  unfold try_catch, bind at 1.
  destruct (String.eqb (upper method) "GET"); [finish_reply |].
  destruct (String.eqb (upper method) "POST"); [destruct files; finish_reply |].
  destruct (String.eqb (upper method) "PUT"); [finish_reply |].
  destruct (String.eqb (upper method) "DELETE"); [finish_reply | discriminate Hmeth].
Qed.

(** What [classify_response] does with a status-202 reply. *)
Lemma classify_202 (r : response) :
  r_status r = 202 ->
  forall env st, classify_response json_loads r env st = (Ok processing_msg, st).
Proof.
  intros H env st. unfold classify_response. rewrite H. reflexivity.
Qed.

(** A non-2xx reply other than 202 raises [HTTPStatusError]. *)
Lemma classify_error (r : response) :
  r_status r <> 202 -> ~ (200 <= r_status r < 300) ->
  forall env st,
    classify_response json_loads r env st
    = (Exc (HTTPStatusError (r_status r) (r_body r)), st).
Proof.
  intros H202 H2xx env st. unfold classify_response.
  rewrite (proj2 (Z.eqb_neq _ _) H202).
  unfold raise_for_status, bind, raise.
  destruct ((200 <=? r_status r) && (r_status r <? 300)) eqn:E; [| reflexivity].
  exfalso. apply H2xx. apply andb_true_iff in E as [E1 E2].
  apply Z.leb_le in E1. apply Z.ltb_lt in E2. lia.
Qed.

(** A 2xx reply other than 202 goes to the [Content-Type] dispatch. *)
Lemma classify_success (r : response) :
  r_status r <> 202 -> 200 <= r_status r < 300 ->
  forall env st,
    classify_response json_loads r env st
    = (let content_type := r_content_type r in
       if str_in "application/json" content_type
          || str_in "application/vnd.f5.ihealth.api+json" content_type then
         response_json json_loads r
       else if str_in "application/xml" content_type || str_in "text/xml" content_type then
         ret (JObj [("xml_content", JStr (r_body r))])
       else if str_in "application/octet-stream" content_type then
         ret (JObj [("binary_size", JInt (Z.of_nat (String.length (r_body r))));
                    ("message", JStr binary_msg)])
       else ret (JObj [("content", JStr (r_body r))])) env st.
Proof.
  intros H202 H2xx env st. unfold classify_response.
  rewrite (proj2 (Z.eqb_neq _ _) H202).
  unfold raise_for_status, bind.
  replace ((200 <=? r_status r) && (r_status r <? 300)) with true
    by (symmetry; apply andb_true_iff; split; [apply Z.leb_le | apply Z.ltb_lt]; lia).
  reflexivity.
Qed.

(** ** C3 (amended) *)

(** C3, as the code does it: a method whose [str.upper()] (see [upper])
    is none of GET/POST/PUT/DELETE sends no request to the API.  The token is obtained
    first, as for every method (a token exchange may take place, and its
    exception propagates); then the [ValueError] raised for the method is
    caught by the gateway's own [except Exception] clause and comes back
    as the error shape. *)
Theorem make_api_request_unsupported_method (env : Env) (st : St)
    (method endpoint accept_type : string) (data : option (list (string * string)))
    (files : list (string * string)) :
  supported_method method = false ->
  make_api_request json_loads py_repr method endpoint accept_type data files env st
  = match get_auth_token json_loads env st with
    | (Ok _, st1) =>
        (Ok (JObj [("error", JStr ("API request failed: Unsupported HTTP method: "
                                   ++ method))]), st1)
    | (Exc e, st1) => (Exc e, st1)
    end.
Proof.
  intros Hmeth.
  unfold supported_method in Hmeth. simpl in Hmeth.
  repeat rewrite orb_false_iff in Hmeth.
  destruct Hmeth as [HG [HP [HU [HD _]]]].
  unfold make_api_request, bind at 1.
  destruct (get_auth_token json_loads env st) as [[tok | e] st1]; [| reflexivity].
  unfold try_catch, bind, raise.
  rewrite HG, HP, HU, HD. reflexivity.
Qed.

(** ** C6 *)

(** C6: a reply with a status that is neither 2xx nor 202 makes the gateway
    return, without raising, the error shape with the status and the raw
    body, which [format_response] renders as the two lines
    ["Error: API request failed: <status>"] and ["Details: <body>"]. *)
Theorem make_api_request_http_error (env : Env) (st st1 : St) (tok : Json) (r : response)
    (method endpoint accept_type : string) (data : option (list (string * string)))
    (files : list (string * string)) :
  get_auth_token json_loads env st = (Ok tok, st1) ->
  supported_method method = true ->
  (forall rq, env_api_reply env rq = HResp r) ->
  r_status r <> 202 -> ~ (200 <= r_status r < 300) ->
  let error_shape :=
    JObj [("error", JStr ("API request failed: " ++ string_of_Z (r_status r)));
          ("details", JStr (r_body r))] in
  fst (make_api_request json_loads py_repr method endpoint accept_type data files env st)
    = Ok error_shape /\
  format_response py_repr json_dumps error_shape
    = "Error: API request failed: " ++ string_of_Z (r_status r) ++ nl
      ++ "Details: " ++ r_body r.
Proof.
  intros Hauth Hmeth Hreply H202 H2xx error_shape. split.
  - rewrite (make_api_request_reply env st st1 tok r
               (Exc (HTTPStatusError (r_status r) (r_body r))))
      by (try assumption; apply classify_error; assumption).
    reflexivity.
  - unfold error_shape, format_response. simpl.
    reflexivity.
Qed.

(** ** C7 *)

(** C7: a 202 reply, whatever its body and [Content-Type], makes the
    gateway return the fixed ["processing"] shape; the status is looked at
    before anything else. *)
Theorem make_api_request_accepted (env : Env) (st st1 : St) (tok : Json) (r : response)
    (method endpoint accept_type : string) (data : option (list (string * string)))
    (files : list (string * string)) :
  get_auth_token json_loads env st = (Ok tok, st1) ->
  supported_method method = true ->
  (forall rq, env_api_reply env rq = HResp r) ->
  r_status r = 202 ->
  fst (make_api_request json_loads py_repr method endpoint accept_type data files env st)
  = Ok (JObj [("status", JStr "processing");
              ("message", JStr "Request accepted, processing in progress. Retry in 10 seconds.")]).
Proof.
  intros Hauth Hmeth Hreply H202.
  rewrite (make_api_request_reply env st st1 tok r (Ok processing_msg))
    by (try assumption; apply classify_202; assumption).
  reflexivity.
Qed.

(** ** C9 (amended) *)

(** C9, as the code does it: a 2xx reply other than 202 whose
    [Content-Type] contains ["application/octet-stream"] and none of the
    JSON and XML media types tested before it is reported by its length in
    bytes and the fixed message only; the body is not in the result. *)
Theorem make_api_request_binary (env : Env) (st st1 : St) (tok : Json) (r : response)
    (method endpoint accept_type : string) (data : option (list (string * string)))
    (files : list (string * string)) :
  get_auth_token json_loads env st = (Ok tok, st1) ->
  supported_method method = true ->
  (forall rq, env_api_reply env rq = HResp r) ->
  r_status r <> 202 -> 200 <= r_status r < 300 ->
  str_in "application/json" (r_content_type r) = false ->
  str_in "application/vnd.f5.ihealth.api+json" (r_content_type r) = false ->
  str_in "application/xml" (r_content_type r) = false ->
  str_in "text/xml" (r_content_type r) = false ->
  str_in "application/octet-stream" (r_content_type r) = true ->
  fst (make_api_request json_loads py_repr method endpoint accept_type data files env st)
  = Ok (JObj [("binary_size", JInt (Z.of_nat (String.length (r_body r))));
              ("message", JStr "Binary content retrieved successfully")]).
Proof.
  intros Hauth Hmeth Hreply H202 H2xx Hj Hv Hx Ht Ho.
  rewrite (make_api_request_reply env st st1 tok r
             (Ok (JObj [("binary_size", JInt (Z.of_nat (String.length (r_body r))));
                        ("message", JStr binary_msg)])))
    by (try assumption;
        intros env' st'; rewrite classify_success by assumption; cbv zeta;
        rewrite Hj, Hv, Hx, Ht, Ho; reflexivity).
  reflexivity.
Qed.

(** ** The tool surface *)

Lemma str_app_assoc (a b c : string) : (a ++ b) ++ c = a ++ (b ++ c).
Proof.
  induction a as [| x a IH]; simpl; [reflexivity | rewrite IH; reflexivity].
Qed.

Lemma str_app_nil_r (a : string) : a ++ "" = a.
Proof.
  induction a as [| x a IH]; simpl; [reflexivity | rewrite IH; reflexivity].
Qed.

(** ** C5 *)

(** C5: every tool that takes a [qkview_id], called with the empty
    string for it, returns exactly ["Error: qkview_id parameter is
    required"] and leaves the state as it was: no HTTP request (token or
    API) and no cache change. *)
Theorem empty_qkview_id_short_circuit (env : Env) (st : St) (tc : tool_call) :
  qkview_id_param tc = Some "" ->
  run_tool json_loads py_repr json_dumps tc env st
  = (Ok "Error: qkview_id parameter is required", st).
Proof.
  intros H.
  destruct tc; simpl in H; try discriminate H; injection H as H; subst; reflexivity.
Qed.

(** ** C8 *)

(** C8: with a non-empty [qkview_id], [get_qkview_diagnostics] is one GET of
    [/qkviews/{id}/diagnostics] followed by [?set=<value>] exactly when
    [diagnostic_set] is "hit" or "miss", with the [Accept] type of
    [output_format] (json, xml, pdf, csv, in any case) and the JSON vendor
    media type for any other format. *)
Theorem get_qkview_diagnostics_request (qkview_id diagnostic_set output_format : string) :
  qkview_id <> "" ->
  get_qkview_diagnostics json_loads py_repr json_dumps qkview_id diagnostic_set output_format
  = request_and_format json_loads py_repr json_dumps "GET"
      (spec_diagnostics_endpoint qkview_id diagnostic_set)
      (spec_diagnostics_accept output_format) None [].
Proof.
  intros Hq.
  unfold get_qkview_diagnostics, spec_diagnostics_endpoint, spec_diagnostics_accept,
    format_map_get.
  rewrite (proj2 (String.eqb_neq _ _) Hq).
  simpl existsb. rewrite orb_false_r.
  rewrite !str_app_assoc.
  destruct (String.eqb diagnostic_set "hit" || String.eqb diagnostic_set "miss");
    rewrite ?str_app_nil_r;
    destruct (String.eqb (lower output_format) "json"); reflexivity.
Qed.

(** ** C10 *)

(** C10: [upload_qkview] with a non-empty [file_path] naming no existing
    file returns exactly ["Error: File not found: <file_path>"] and leaves
    the state as it was (no token exchange, no API request). *)
Theorem upload_qkview_missing_file (env : Env) (st : St)
    (file_path description visible_in_gui f5_support_case share_with_case_owner : string) :
  file_path <> "" ->
  env_file_exists env file_path = false ->
  upload_qkview json_loads py_repr json_dumps file_path description visible_in_gui
    f5_support_case share_with_case_owner env st
  = (Ok ("Error: File not found: " ++ file_path), st).
Proof.
  intros Hp Hex.
  unfold upload_qkview. rewrite (proj2 (String.eqb_neq _ _) Hp).
  unfold bind, ask. rewrite Hex. reflexivity.
Qed.

End Properties.

(** * Further properties of the code *)

Section Extras.

Variable json_loads : string -> Json + string.
Variable py_repr : Json -> string.
Variable json_dumps : Json -> string.

(** ** State changes of the building blocks *)

(** The state after [get_auth_token]: unchanged, or one token POST more. *)
Definition token_step (st st' : St) : Prop :=
  st' = st \/ exists c, trace st' = (trace st ++ [NTokenPost c])%list.

(** The state after the request part of [make_api_request]: unchanged, or
    one API request more and the same cache. *)
Definition api_step (st st' : St) : Prop :=
  st' = st \/
  exists rq, st' = mk_st (cache_token st) (cache_expires_at st) (trace st ++ [NApi rq]).

Lemma get_auth_token_token_step (env : Env) (st : St) :
  token_step st (snd (get_auth_token json_loads env st)).
Proof.
  unfold get_auth_token, bind, ask, get_st.
  destruct (py_truthy (cache_token st) && (env_now env <? cache_expires_at st - 60));
    [left; reflexivity |].
  rewrite get_credentials_spec.
  destruct (String.eqb (env_client_id env) "" || String.eqb (env_client_secret env) "");
    [left; reflexivity |].
  right. exists (env_client_id env ++ ":" ++ env_client_secret env).
  unfold try_catch, log_net, http_result, raise_for_status, response_json, subscript,
    set_cache_token, py_add_time, set_cache_expires_at, ret, raise.
  cbn [fst snd trace cache_token].
  destruct (env_token_reply env) as [r | msg]; [| reflexivity].
  destruct ((200 <=? r_status r) && (r_status r <? 300)); [| reflexivity].
  destruct (json_loads (r_body r)) as [j | jerr]; [| reflexivity].
  destruct j as [| b | n | s | xs | kvs]; try reflexivity.
  destruct (dict_get "access_token" kvs) as [tok |]; [| reflexivity].
  destruct (match dict_get "expires_in" kvs with Some v => v | None => JInt 1800 end);
    reflexivity.
Qed.

(** [classify_response] reads the reply only. *)
Lemma classify_response_pure (r : response) :
  exists res, forall env st, classify_response json_loads r env st = (res, st).
Proof.
  unfold classify_response, raise_for_status, response_json, bind, ret, raise.
  destruct (r_status r =? 202); [eexists; reflexivity |].
  destruct ((200 <=? r_status r) && (r_status r <? 300)); [| eexists; reflexivity].
  destruct (str_in "application/json" (r_content_type r)
            || str_in "application/vnd.f5.ihealth.api+json" (r_content_type r));
    [destruct (json_loads (r_body r)); eexists; reflexivity |].
  destruct (str_in "application/xml" (r_content_type r)
            || str_in "text/xml" (r_content_type r)); [eexists; reflexivity |].
  destruct (str_in "application/octet-stream" (r_content_type r)); eexists; reflexivity.
Qed.

Local Ltac finish_api_step :=
  unfold send, bind, log_net, ask, http_result, raise, ret;
  match goal with |- context [env_api_reply ?env ?rq] =>
    destruct (env_api_reply env rq) as [r | msg] end;
  [ match goal with |- context [classify_response _ ?r] =>
      let res := fresh "res" in let Hc := fresh "Hc" in
      destruct (classify_response_pure r) as [res Hc]; rewrite Hc;
      destruct res as [j | e]; [| destruct e] end
  | ];
  simpl; right; eexists; reflexivity.

Lemma make_api_request_step (env : Env) (st : St) (method endpoint accept_type : string)
    (data : option (list (string * string))) (files : list (string * string)) :
  exists st1, token_step st st1 /\
    api_step st1 (snd (make_api_request json_loads py_repr method endpoint accept_type
                         data files env st)).
Proof.
  pose proof (get_auth_token_token_step env st) as Htok.
  unfold make_api_request, bind at 1.
  destruct (get_auth_token json_loads env st) as [[tok | e] st1] eqn:E;
    exists st1; split; try exact Htok; [| left; reflexivity].
  unfold try_catch, bind at 1.
  destruct (String.eqb (upper method) "GET"); [finish_api_step |].
  destruct (String.eqb (upper method) "POST"); [destruct files; finish_api_step |].
  destruct (String.eqb (upper method) "PUT"); [finish_api_step |].
  destruct (String.eqb (upper method) "DELETE"); [finish_api_step |].
  simpl. left. reflexivity.
Qed.

Lemma one_call_step_refl (st : St) : one_call_step st st.
Proof.
  exists []. rewrite app_nil_r. split; [reflexivity | split; [constructor | auto]].
Qed.

Lemma one_call_step_compose (st st1 st2 : St) :
  token_step st st1 -> api_step st1 st2 -> one_call_step st st2.
Proof.
  intros [-> | [c Hc]] [-> | [rq ->]].
  - apply one_call_step_refl.
  - exists [NApi rq]. simpl. split; [reflexivity | split; [constructor |]].
    intros _. split; reflexivity.
  - exists [NTokenPost c]. split; [exact Hc | split; [constructor |]].
    intros H. exfalso. apply (H c). left. reflexivity.
  - exists [NTokenPost c; NApi rq]. simpl. rewrite Hc, <- app_assoc.
    split; [reflexivity | split; [constructor |]].
    intros H. exfalso. apply (H c). left. reflexivity.
Qed.

Lemma make_api_request_one_call (env : Env) (st : St) (method endpoint accept_type : string)
    (data : option (list (string * string))) (files : list (string * string)) :
  one_call_step st
    (snd (make_api_request json_loads py_repr method endpoint accept_type data files env st)).
Proof.
  destruct (make_api_request_step env st method endpoint accept_type data files)
    as [st1 [H1 H2]].
  exact (one_call_step_compose st st1 _ H1 H2).
Qed.

Lemma request_and_format_one_call (env : Env) (st : St) (method endpoint accept_type : string)
    (data : option (list (string * string))) (files : list (string * string)) :
  one_call_step st
    (snd (request_and_format json_loads py_repr json_dumps method endpoint accept_type
            data files env st)).
Proof.
  pose proof (make_api_request_one_call env st method endpoint accept_type data files) as H.
  unfold request_and_format, bind, ret.
  destruct (make_api_request json_loads py_repr method endpoint accept_type data files env st)
    as [[j | e] st1]; exact H.
Qed.

(** ** X: one tool call, at most one token exchange and one API request *)

(** Every tool call extends the trace by at most one token POST followed
    by at most one API request, and writes the token cache only when it
    made a token POST. *)
Theorem run_tool_one_call (env : Env) (st : St) (tc : tool_call) :
  one_call_step st (snd (run_tool json_loads py_repr json_dumps tc env st)).
Proof.
  destruct tc;
    unfold run_tool, list_qkviews, upload_qkview, delete_qkview, delete_all_qkviews,
      get_qkview_metadata, update_qkview_metadata, get_qkview_diagnostics,
      get_diagnostics_hits, get_diagnostics_misses, list_qkview_files, get_qkview_file,
      download_original_qkview, list_available_commands, get_command_output,
      get_bigip_info, get_bigip_slot_info, get_hardware_info, get_software_info,
      get_license_info, get_api_info, search_qkview_logs;
    repeat match goal with
    | |- context [if String.eqb ?x "" then _ else _] => destruct (String.eqb x "")
    end;
    try apply one_call_step_refl;
    try apply request_and_format_one_call.
  - (* upload_qkview *)
    unfold bind at 1, ask.
    destruct (env_file_exists env file_path); simpl; [| apply one_call_step_refl].
    unfold try_catch, raise.
    destruct (env_open_error env file_path); [apply one_call_step_refl |].
    pose proof (make_api_request_one_call env st "POST" "/qkviews" ""
      (Some (opt_field "description" description
             ++ opt_field "visible_in_gui" visible_in_gui
             ++ opt_field "f5_support_case" f5_support_case
             ++ opt_field "share_with_case_owner" share_with_case_owner)%list)
      [("qkview", basename file_path)]) as H.
    unfold bind at 1, ret.
    destruct (make_api_request _ _ _ _ _ _ _ env st) as [[j | e] st1]; exact H.
  - (* update_qkview_metadata *)
    match goal with |- context [match ?d with [] => _ | _ :: _ => _ end] =>
      destruct d end;
      [apply one_call_step_refl | apply request_and_format_one_call].
  - (* validate_credentials *)
    pose proof (get_auth_token_token_step env st) as H.
    unfold validate_credentials, try_catch, bind, ret.
    destruct (get_auth_token json_loads env st) as [[t | e] st1]; simpl in H.
    + destruct (py_truthy t);
        exact (one_call_step_compose st st1 st1 H (or_introl eq_refl)).
    + destruct e; exact (one_call_step_compose st st1 st1 H (or_introl eq_refl)).
Qed.

(** ** Tools that return text whatever happens *)

(** [validate_credentials] never raises: every exception of
    [get_auth_token] is turned into an error text. *)
Theorem validate_credentials_returns_text (env : Env) (st : St) :
  exists msg st', validate_credentials json_loads env st = (Ok msg, st').
Proof.
  unfold validate_credentials, try_catch, bind, ret.
  destruct (get_auth_token json_loads env st) as [[t | e] st1].
  - destruct (py_truthy t); eexists; eexists; reflexivity.
  - destruct e; eexists; eexists; reflexivity.
Qed.

(** [upload_qkview] never raises: the checks return text, and the file
    opening and the request sit inside its [try]. *)
Theorem upload_qkview_returns_text (env : Env) (st : St)
    (file_path description visible_in_gui f5_support_case share_with_case_owner : string) :
  exists msg st',
    upload_qkview json_loads py_repr json_dumps file_path description visible_in_gui
      f5_support_case share_with_case_owner env st = (Ok msg, st').
Proof.
  unfold upload_qkview.
  destruct (String.eqb file_path ""); [eexists; eexists; reflexivity |].
  unfold bind at 1, ask.
  destruct (env_file_exists env file_path); [| eexists; eexists; reflexivity].
  simpl. unfold try_catch, raise.
  destruct (env_open_error env file_path); [eexists; eexists; reflexivity |].
  unfold bind at 1, ret.
  destruct (make_api_request _ _ _ _ _ _ _ env st) as [[j | e] st1];
    eexists; eexists; reflexivity.
Qed.

(** With an unusable cache and a credential unset, [validate_credentials]
    returns the configuration error as text, naming both variables, and
    makes no request. *)
Theorem validate_credentials_missing (env : Env) (st : St) :
  ~ (py_truthy (cache_token st) = true /\ env_now env < cache_expires_at st - 60) ->
  (env_client_id env = "" \/ env_client_secret env = "") ->
  validate_credentials json_loads env st
  = (Ok ("Error: F5_IHEALTH_CLIENT_ID and F5_IHEALTH_CLIENT_SECRET environment variables are required"), st).
Proof.
  intros Hstale Hempty.
  assert (Hcond : py_truthy (cache_token st) && (env_now env <? cache_expires_at st - 60)
                  = false).
  { destruct (py_truthy (cache_token st)) eqn:Ht; [| reflexivity].
    destruct (env_now env <? cache_expires_at st - 60) eqn:Hl; [| reflexivity].
    exfalso. apply Hstale. split; [reflexivity | apply Z.ltb_lt; exact Hl]. }
  unfold validate_credentials, try_catch, get_auth_token, bind, ask, get_st.
  rewrite Hcond, get_credentials_spec.
  replace (String.eqb (env_client_id env) "" || String.eqb (env_client_secret env) "")
    with true; [reflexivity |].
  destruct Hempty as [H | H]; rewrite H;
    destruct (String.eqb (env_client_id env) ""); reflexivity.
Qed.

(** With a truthy token whose expiry is more than 60 seconds away,
    [validate_credentials] reports success without any request. *)
Theorem validate_credentials_cached (env : Env) (st : St) :
  py_truthy (cache_token st) = true -> env_now env < cache_expires_at st - 60 ->
  validate_credentials json_loads env st
  = (Ok "Success: F5 iHealth API credentials are valid and authentication successful.", st).
Proof.
  intros Ht Hn.
  unfold validate_credentials, try_catch, get_auth_token, bind, ask, get_st.
  rewrite Ht, (proj2 (Z.ltb_lt _ _) Hn). cbn [andb]. unfold ret. rewrite Ht. reflexivity.
Qed.

(** ** Required parameters other than [qkview_id] *)

(** Each other required parameter, when empty, gives its own error text
    and no request: [file_path] of [upload_qkview]; [file_hash],
    [command_name] and [search_term] once [qkview_id] is given; and
    [update_qkview_metadata] with none of its four fields set. *)
Theorem other_required_parameters (env : Env) (st : St) (q d v c s n : string) :
  q <> "" ->
  upload_qkview json_loads py_repr json_dumps "" d v c s env st
    = (Ok "Error: file_path parameter is required", st) /\
  get_qkview_file json_loads py_repr json_dumps q "" env st
    = (Ok "Error: file_hash parameter is required", st) /\
  get_command_output json_loads py_repr json_dumps q "" env st
    = (Ok "Error: command_name parameter is required", st) /\
  search_qkview_logs json_loads py_repr json_dumps q "" env st
    = (Ok "Error: search_term parameter is required", st) /\
  update_qkview_metadata json_loads py_repr json_dumps q "" "" "" "" env st
    = (Ok "Error: At least one metadata field must be provided to update", st).
Proof.
  intros Hq.
  unfold get_qkview_file, get_command_output, search_qkview_logs, update_qkview_metadata.
  rewrite (proj2 (String.eqb_neq _ _) Hq).
  repeat split; reflexivity.
Qed.

(** ** [download_original_qkview] is [get_qkview_file] with the hash
    ["qkview"] *)

Theorem download_original_is_get_file (qkview_id : string) :
  download_original_qkview json_loads py_repr json_dumps qkview_id
  = get_qkview_file json_loads py_repr json_dumps qkview_id "qkview".
Proof.
  unfold download_original_qkview, get_qkview_file.
  destruct (String.eqb qkview_id ""); reflexivity.
Qed.

(** ** The gateway's other outcomes *)

(** A transport failure (connection, timeout, TLS) while sending the
    request is caught: the gateway returns the error shape with the
    exception's text, rendered with the placeholder details line. *)
Theorem make_api_request_transport_error (env : Env) (st st1 : St) (tok : Json)
    (msg method endpoint accept_type : string) (data : option (list (string * string)))
    (files : list (string * string)) :
  get_auth_token json_loads env st = (Ok tok, st1) ->
  supported_method method = true ->
  (forall rq, env_api_reply env rq = HFail msg) ->
  fst (make_api_request json_loads py_repr method endpoint accept_type data files env st)
    = Ok (JObj [("error", JStr ("API request failed: " ++ msg))]) /\
  format_response py_repr json_dumps (JObj [("error", JStr ("API request failed: " ++ msg))])
    = "Error: API request failed: " ++ msg ++ nl ++ "Details: No additional details".
Proof.
  intros Hauth Hmeth Hreply. split; [| reflexivity].
  unfold make_api_request, bind at 1. rewrite Hauth.
  unfold supported_method in Hmeth. simpl in Hmeth.
  unfold try_catch, bind at 1.
  destruct (String.eqb (upper method) "GET");
    [| destruct (String.eqb (upper method) "POST");
       [| destruct (String.eqb (upper method) "PUT");
          [| destruct (String.eqb (upper method) "DELETE"); [| discriminate Hmeth]]]];
    try destruct files;
    unfold send, bind, log_net, ask, http_result, raise; rewrite Hreply; reflexivity.
Qed.

(** A 2xx reply other than 202 with a JSON [Content-Type] is the parsed
    body; a body that does not parse gives the error shape with the
    decoder's message, not an exception. *)
Theorem make_api_request_json (env : Env) (st st1 : St) (tok : Json) (r : response)
    (method endpoint accept_type : string) (data : option (list (string * string)))
    (files : list (string * string)) :
  get_auth_token json_loads env st = (Ok tok, st1) ->
  supported_method method = true ->
  (forall rq, env_api_reply env rq = HResp r) ->
  r_status r <> 202 -> 200 <= r_status r < 300 ->
  str_in "application/json" (r_content_type r)
  || str_in "application/vnd.f5.ihealth.api+json" (r_content_type r) = true ->
  fst (make_api_request json_loads py_repr method endpoint accept_type data files env st)
  = match json_loads (r_body r) with
    | inl j => Ok j
    | inr msg => Ok (JObj [("error", JStr ("API request failed: " ++ msg))])
    end.
Proof.
  intros Hauth Hmeth Hreply H202 H2xx Hj.
  rewrite (make_api_request_reply json_loads py_repr env st st1 tok r
             (match json_loads (r_body r) with
              | inl j => Ok j
              | inr msg => Exc (OtherExn msg)
              end))
    by (try assumption;
        intros env' st'; rewrite classify_success by assumption; cbv zeta;
        rewrite Hj; unfold response_json;
        destruct (json_loads (r_body r)); reflexivity).
  destruct (json_loads (r_body r)); reflexivity.
Qed.

(** A 2xx reply other than 202 whose [Content-Type] names none of the
    JSON, XML or binary types is returned as its raw text under
    ["content"]. *)
Theorem make_api_request_other_content (env : Env) (st st1 : St) (tok : Json)
    (r : response) (method endpoint accept_type : string)
    (data : option (list (string * string))) (files : list (string * string)) :
  get_auth_token json_loads env st = (Ok tok, st1) ->
  supported_method method = true ->
  (forall rq, env_api_reply env rq = HResp r) ->
  r_status r <> 202 -> 200 <= r_status r < 300 ->
  str_in "application/json" (r_content_type r) = false ->
  str_in "application/vnd.f5.ihealth.api+json" (r_content_type r) = false ->
  str_in "application/xml" (r_content_type r) = false ->
  str_in "text/xml" (r_content_type r) = false ->
  str_in "application/octet-stream" (r_content_type r) = false ->
  fst (make_api_request json_loads py_repr method endpoint accept_type data files env st)
  = Ok (JObj [("content", JStr (r_body r))]).
Proof.
  intros Hauth Hmeth Hreply H202 H2xx Hj Hv Hx Ht Ho.
  rewrite (make_api_request_reply json_loads py_repr env st st1 tok r
             (Ok (JObj [("content", JStr (r_body r))])))
    by (try assumption;
        intros env' st'; rewrite classify_success by assumption; cbv zeta;
        rewrite Hj, Hv, Hx, Ht, Ho; reflexivity).
  reflexivity.
Qed.

Local Ltac sent_request Hup :=
  rewrite Hup; unfold send, bind, log_net, ask, http_result, raise, ret;
  match goal with |- context [env_api_reply ?env ?rq] =>
    destruct (env_api_reply env rq) as [r | msg] end;
  [ match goal with |- context [classify_response _ ?r] =>
      let res := fresh "res" in let Hc := fresh "Hc" in
      destruct (classify_response_pure r) as [res Hc]; rewrite Hc;
      destruct res as [j | e]; [| destruct e] end
  | ];
  (simpl; eexists; split; [reflexivity | simpl; repeat split]).

(** The one request the gateway sends, once it has a token and a
    supported method: the method upper-cased, the URL [API_BASE_URL]
    followed by the endpoint, [Authorization: Bearer <token>], the given
    [Accept] type or [application/vnd.f5.ihealth.api] when it is empty, the
    fixed [User-Agent]; form data for POST and PUT only, files for POST
    only.  The token cache is left as [get_auth_token] left it. *)
Theorem make_api_request_sends (env : Env) (st st1 : St) (tok : Json)
    (method endpoint accept_type : string) (data : option (list (string * string)))
    (files : list (string * string)) :
  get_auth_token json_loads env st = (Ok tok, st1) ->
  supported_method method = true ->
  exists rq,
    snd (make_api_request json_loads py_repr method endpoint accept_type data files env st)
      = mk_st (cache_token st1) (cache_expires_at st1) (trace st1 ++ [NApi rq]) /\
    rq_method rq = upper method /\
    rq_url rq = API_BASE_URL ++ endpoint /\
    rq_authorization rq = "Bearer " ++ py_str py_repr tok /\
    rq_accept rq = (if String.eqb accept_type "" then ACCEPT_HEADER else accept_type) /\
    rq_user_agent rq = USER_AGENT /\
    rq_data rq = (if String.eqb (upper method) "GET" || String.eqb (upper method) "DELETE"
                  then None else data) /\
    rq_files rq = (if String.eqb (upper method) "POST" then files else []).
Proof.
  intros Hauth Hmeth.
  unfold make_api_request, bind at 1. rewrite Hauth.
  unfold supported_method in Hmeth. simpl in Hmeth.
  unfold try_catch, bind at 1.
  destruct (String.eqb (upper method) "GET") eqn:HG.
  { apply String.eqb_eq in HG. sent_request HG. }
  destruct (String.eqb (upper method) "POST") eqn:HP.
  { apply String.eqb_eq in HP. destruct files; sent_request HP. }
  destruct (String.eqb (upper method) "PUT") eqn:HU.
  { apply String.eqb_eq in HU. sent_request HU. }
  destruct (String.eqb (upper method) "DELETE") eqn:HD; [| discriminate Hmeth].
  apply String.eqb_eq in HD. sent_request HD.
Qed.

(** ** The token exchange *)

Lemma cache_unusable (env : Env) (st : St) :
  ~ (py_truthy (cache_token st) = true /\ env_now env < cache_expires_at st - 60) ->
  py_truthy (cache_token st) && (env_now env <? cache_expires_at st - 60) = false.
Proof.
  intros Hstale.
  destruct (py_truthy (cache_token st)) eqn:Ht; [| reflexivity].
  destruct (env_now env <? cache_expires_at st - 60) eqn:Hl; [| reflexivity].
  exfalso. apply Hstale. split; [reflexivity | apply Z.ltb_lt; exact Hl].
Qed.

Local Ltac exchange_path Hstale Hid Hsec :=
  unfold get_auth_token, bind, ask, get_st;
  rewrite (cache_unusable _ _ Hstale), get_credentials_spec;
  replace (String.eqb (env_client_id _) "" || String.eqb (env_client_secret _) "")
    with false
    by (apply eq_sym, orb_false_iff; split; apply String.eqb_neq; assumption);
  unfold try_catch, log_net, http_result, raise_for_status, response_json, subscript,
    set_cache_token, py_add_time, set_cache_expires_at, ret, raise;
  cbn [fst snd trace cache_token cache_expires_at].

(** A successful exchange stores the [access_token] and the expiry
    [now + expires_in], [expires_in] defaulting to 1800 seconds, and
    returns the token. *)
Theorem token_exchange_success (env : Env) (st : St) (r : response)
    (kvs : list (string * Json)) (t : Json) (n : Z) :
  ~ (py_truthy (cache_token st) = true /\ env_now env < cache_expires_at st - 60) ->
  env_client_id env <> "" -> env_client_secret env <> "" ->
  env_token_reply env = HResp r -> 200 <= r_status r < 300 ->
  json_loads (r_body r) = inl (JObj kvs) ->
  dict_get "access_token" kvs = Some t ->
  (dict_get "expires_in" kvs = None /\ n = 1800) \/ dict_get "expires_in" kvs = Some (JInt n) ->
  get_auth_token json_loads env st
  = (Ok t, mk_st t (env_now env + n)
             (trace st ++ [NTokenPost (env_client_id env ++ ":" ++ env_client_secret env)])).
Proof.
  intros Hstale Hid Hsec Hreply H2xx Hjson Htok Hexp.
  exchange_path Hstale Hid Hsec.
  rewrite Hreply.
  replace ((200 <=? r_status r) && (r_status r <? 300)) with true
    by (symmetry; apply andb_true_iff; split; [apply Z.leb_le | apply Z.ltb_lt]; lia).
  rewrite Hjson, Htok.
  destruct Hexp as [[Hnone ->] | Hsome]; [rewrite Hnone | rewrite Hsome]; reflexivity.
Qed.

(** A non-2xx reply of the token endpoint raises
    ["Authentication failed: <status>"]; the cache is not written. *)
Theorem token_exchange_http_error (env : Env) (st : St) (r : response) :
  ~ (py_truthy (cache_token st) = true /\ env_now env < cache_expires_at st - 60) ->
  env_client_id env <> "" -> env_client_secret env <> "" ->
  env_token_reply env = HResp r -> ~ (200 <= r_status r < 300) ->
  get_auth_token json_loads env st
  = (Exc (ValueError ("Authentication failed: " ++ string_of_Z (r_status r))),
     mk_st (cache_token st) (cache_expires_at st)
       (trace st ++ [NTokenPost (env_client_id env ++ ":" ++ env_client_secret env)])).
Proof.
  intros Hstale Hid Hsec Hreply H2xx.
  exchange_path Hstale Hid Hsec.
  rewrite Hreply.
  destruct ((200 <=? r_status r) && (r_status r <? 300)) eqn:E; [| reflexivity].
  exfalso. apply H2xx. apply andb_true_iff in E as [E1 E2].
  apply Z.leb_le in E1. apply Z.ltb_lt in E2. lia.
Qed.

(** A transport failure of the token POST raises
    ["Authentication failed: <message>"]; the cache is not written. *)
Theorem token_exchange_transport_error (env : Env) (st : St) (msg : string) :
  ~ (py_truthy (cache_token st) = true /\ env_now env < cache_expires_at st - 60) ->
  env_client_id env <> "" -> env_client_secret env <> "" ->
  env_token_reply env = HFail msg ->
  get_auth_token json_loads env st
  = (Exc (ValueError ("Authentication failed: " ++ msg)),
     mk_st (cache_token st) (cache_expires_at st)
       (trace st ++ [NTokenPost (env_client_id env ++ ":" ++ env_client_secret env)])).
Proof.
  intros Hstale Hid Hsec Hreply.
  exchange_path Hstale Hid Hsec.
  rewrite Hreply. reflexivity.
Qed.

(** When [expires_in] is a string, the call fails, but the new token has
    already been written to the cache, beside the old expiry. *)
Theorem token_exchange_bad_expiry_keeps_token (env : Env) (st : St) (r : response)
    (kvs : list (string * Json)) (t : Json) (x : string) :
  ~ (py_truthy (cache_token st) = true /\ env_now env < cache_expires_at st - 60) ->
  env_client_id env <> "" -> env_client_secret env <> "" ->
  env_token_reply env = HResp r -> 200 <= r_status r < 300 ->
  json_loads (r_body r) = inl (JObj kvs) ->
  dict_get "access_token" kvs = Some t ->
  dict_get "expires_in" kvs = Some (JStr x) ->
  get_auth_token json_loads env st
  = (Exc (ValueError
            "Authentication failed: unsupported operand type(s) for +: 'float' and 'str'"),
     mk_st t (cache_expires_at st)
       (trace st ++ [NTokenPost (env_client_id env ++ ":" ++ env_client_secret env)])).
Proof.
  intros Hstale Hid Hsec Hreply H2xx Hjson Htok Hexp.
  exchange_path Hstale Hid Hsec.
  rewrite Hreply.
  replace ((200 <=? r_status r) && (r_status r <? 300)) with true
    by (symmetry; apply andb_true_iff; split; [apply Z.leb_le | apply Z.ltb_lt]; lia).
  rewrite Hjson, Htok, Hexp. reflexivity.
Qed.

(** A token [get_auth_token] returns is the one in the cache afterwards. *)
Lemma get_auth_token_ok_cached (env : Env) (st st' : St) (t : Json) :
  get_auth_token json_loads env st = (Ok t, st') -> cache_token st' = t.
Proof.
  unfold get_auth_token, bind, ask, get_st.
  destruct (py_truthy (cache_token st) && (env_now env <? cache_expires_at st - 60)).
  { intros H. inversion H. reflexivity. }
  rewrite get_credentials_spec.
  destruct (String.eqb (env_client_id env) "" || String.eqb (env_client_secret env) "");
    [discriminate |].
  unfold try_catch, log_net, http_result, raise_for_status, response_json, subscript,
    set_cache_token, py_add_time, set_cache_expires_at, ret, raise.
  cbn [fst snd trace cache_token].
  destruct (env_token_reply env) as [r | msg]; [| discriminate].
  destruct ((200 <=? r_status r) && (r_status r <? 300)); [| discriminate].
  destruct (json_loads (r_body r)) as [j | jerr]; [| discriminate].
  destruct j as [| b | n | s | xs | kvs]; try discriminate.
  destruct (dict_get "access_token" kvs) as [tok |]; [| discriminate].
  destruct (match dict_get "expires_in" kvs with Some v => v | None => JInt 1800 end);
    try discriminate; intros H; inversion H; reflexivity.
Qed.

(** Two calls compose: after [get_auth_token] returned a truthy token, a
    later call made more than 60 seconds before the recorded expiry
    returns the same token with no request and no cache change. *)
Theorem get_auth_token_reuse (env env2 : Env) (st st1 : St) (t : Json) :
  get_auth_token json_loads env st = (Ok t, st1) ->
  py_truthy t = true ->
  env_now env2 < cache_expires_at st1 - 60 ->
  get_auth_token json_loads env2 st1 = (Ok t, st1).
Proof.
  intros H1 Ht Hn.
  pose proof (get_auth_token_ok_cached env st st1 t H1) as Hc.
  unfold get_auth_token at 1, bind, ask, get_st.
  rewrite Hc, Ht, (proj2 (Z.ltb_lt _ _) Hn). reflexivity.
Qed.

End Extras.

(** * Runs of the model on concrete inputs *)

(** A [json.loads] that knows one document, the token endpoint's reply
    [{"access_token": "tok", "expires_in": 1800}] (written here as the
    body ["access_token=tok"]). *)
Definition loads_token (s : string) : Json + string :=
  if String.eqb s "access_token=tok"
  then inl (JObj [("access_token", JStr "tok"); ("expires_in", JInt 1800)])
  else inr "Expecting value: line 1 column 1 (char 0)".

(** Credentials set, a working token endpoint, the API answering [r]. *)
Definition env_token_ok (r : response) : Env :=
  mk_env "id" "secret" 0 (HResp (mk_response 200 "application/json" "access_token=tok"))
         (fun _ => HResp r) (fun _ => false) (fun _ => None).

(** A [json.loads] whose token document carries [expires_in] as a string. *)
Definition loads_bad_expiry (s : string) : Json + string :=
  if String.eqb s "access_token=tok"
  then inl (JObj [("access_token", JStr "tok"); ("expires_in", JStr "1800")])
  else inr "Expecting value: line 1 column 1 (char 0)".

(** Credentials set, the clock at [now], the token endpoint giving [o],
    the API answering [a]. *)
Definition env_with (now : Z) (o : http_outcome) (a : http_outcome) : Env :=
  mk_env "id" "secret" now o (fun _ => a) (fun _ => false) (fun _ => None).

(** The token endpoint's successful reply. *)
Definition token_reply_ok : http_outcome :=
  HResp (mk_response 200 "application/json" "access_token=tok").

(** A body of [n] bytes. *)
Fixpoint bytes_of_length (n : nat) : string :=
  match n with
  | O => EmptyString
  | S k => String "x"%char (bytes_of_length k)
  end.

(** ** C1 *)

(** C1 (code defect): with the client id and secret unset and an empty
    token cache, [list_qkviews] does not return an error text: the
    [ValueError] of [get_credentials], raised by [get_auth_token] before
    the [try] of [make_api_request], escapes the tool.  [upload_qkview] and
    [validate_credentials] catch the same exception and return text. *)
Theorem list_qkviews_raises_without_credentials :
  run_tool no_json repr0 dumps0 ListQkviews
    (env_answering "" "" 0 (mk_response 200 "application/json" "")) st_init
  = (Exc (ValueError credentials_msg), st_init).
Proof. reflexivity. Qed.

(** ** C2 witness *)

Lemma get_auth_token_freshness_witness :
  get_auth_token no_json (env_answering "id" "secret" 0 (mk_response 200 "" ""))
    (st_cached 1000)
  = (Ok (JStr "tok"), st_cached 1000).
Proof.
  apply (proj1 (get_auth_token_freshness no_json
                  (env_answering "id" "secret" 0 (mk_response 200 "" "")) (st_cached 1000)));
    simpl; [reflexivity | lia].
Defined.

(** ** C3 *)

(** C3 fails as stated: with an empty cache, the method ["PATCH"] first
    causes a token exchange (a network call), and the gateway then returns
    the error shape instead of raising. *)
Lemma unsupported_method_after_token_exchange :
  make_api_request loads_token repr0 "PATCH" "/qkviews" "" None []
    (env_token_ok (mk_response 200 "application/json" "")) st_init
  = (Ok (JObj [("error", JStr "API request failed: Unsupported HTTP method: PATCH")]),
     mk_st (JStr "tok") 1800 [NTokenPost "id:secret"]).
Proof. reflexivity. Qed.

Lemma make_api_request_unsupported_method_witness :
  supported_method "patch" = false /\ supported_method "poſt" = true /\
  make_api_request loads_token repr0 "patch" "/qkviews" "" None []
    (env_token_ok (mk_response 200 "application/json" "")) st_init
  = (Ok (JObj [("error", JStr "API request failed: Unsupported HTTP method: patch")]),
     mk_st (JStr "tok") 1800 [NTokenPost "id:secret"]).
Proof.
  split; [reflexivity |]. split; [reflexivity |].
  rewrite (make_api_request_unsupported_method loads_token repr0
             (env_token_ok (mk_response 200 "application/json" "")) st_init
             "patch" "/qkviews" "" None [] eq_refl).
  reflexivity.
Defined.

(** ** C4 *)

(** C4 (code defect): [get_qkview_diagnostics] with [output_format="xml"]
    asks for the iHealth XML media type
    [application/vnd.f5.ihealth.api+xml].  A 2xx reply of that type
    contains ["xml"], but the gateway's XML branch tests only
    ["application/xml"] and ["text/xml"] (its JSON branch, by contrast,
    also accepts the iHealth JSON type), so the reply comes back under
    ["content"], not as XML text under ["xml_content"]. *)
Lemma vendor_xml_not_xml_text :
  let r := mk_response 200 "application/vnd.f5.ihealth.api+xml" "<diagnostics/>" in
  fst (make_api_request no_json repr0 "GET" "/qkviews/42/diagnostics"
         "application/vnd.f5.ihealth.api+xml" None []
         (env_answering "id" "secret" 0 r) (st_cached 1000))
  = Ok (JObj [("content", JStr "<diagnostics/>")]) /\
  fst (make_api_request no_json repr0 "GET" "/qkviews/42/diagnostics"
         "application/vnd.f5.ihealth.api+xml" None []
         (env_answering "id" "secret" 0 r) (st_cached 1000))
  <> Ok (JObj [("xml_content", JStr "<diagnostics/>")]).
Proof.
  split; [reflexivity | vm_compute; discriminate].
Qed.

(** ** C5 witness *)

Lemma empty_qkview_id_short_circuit_witness :
  qkview_id_param (GetQkviewDiagnostics "" "hit" "pdf") = Some "" /\
  run_tool no_json repr0 dumps0 (GetQkviewDiagnostics "" "hit" "pdf")
    (env_token_ok (mk_response 200 "" "")) st_init
  = (Ok "Error: qkview_id parameter is required", st_init).
Proof.
  split; [reflexivity |].
  apply (empty_qkview_id_short_circuit no_json repr0 dumps0
           (env_token_ok (mk_response 200 "" "")) st_init (GetQkviewDiagnostics "" "hit" "pdf")).
  reflexivity.
Defined.

(** ** C6 witness: the 404 round trip *)

Lemma make_api_request_http_error_witness :
  fst (make_api_request no_json repr0 "GET" "/qkviews/42" "" None []
         (env_answering "id" "secret" 0 (mk_response 404 "text/plain" "not found"))
         (st_cached 1000))
  = Ok (JObj [("error", JStr "API request failed: 404"); ("details", JStr "not found")]) /\
  format_response repr0 dumps0
    (JObj [("error", JStr "API request failed: 404"); ("details", JStr "not found")])
  = "Error: API request failed: 404" ++ nl ++ "Details: not found".
Proof.
  refine (make_api_request_http_error no_json repr0 dumps0
            (env_answering "id" "secret" 0 (mk_response 404 "text/plain" "not found"))
            (st_cached 1000) (st_cached 1000) (JStr "tok")
            (mk_response 404 "text/plain" "not found") "GET" "/qkviews/42" "" None []
            _ _ _ _ _); simpl; try reflexivity.
  - intros H; discriminate H.
  - lia.
Defined.

(** ** C7 witness *)

Lemma make_api_request_accepted_witness :
  fst (make_api_request no_json repr0 "DELETE" "/qkviews" "" None []
         (env_answering "id" "secret" 0 (mk_response 202 "application/json" "{}"))
         (st_cached 1000))
  = Ok (JObj [("status", JStr "processing");
              ("message", JStr "Request accepted, processing in progress. Retry in 10 seconds.")]).
Proof.
  apply (make_api_request_accepted no_json repr0
           (env_answering "id" "secret" 0 (mk_response 202 "application/json" "{}"))
           (st_cached 1000) (st_cached 1000) (JStr "tok")
           (mk_response 202 "application/json" "{}")); reflexivity.
Defined.

(** ** C8 witness *)

Lemma get_qkview_diagnostics_request_witness :
  "42" <> "" /\
  get_qkview_diagnostics no_json repr0 dumps0 "42" "hit" "PDF"
  = request_and_format no_json repr0 dumps0 "GET" "/qkviews/42/diagnostics?set=hit"
      "application/pdf" None [].
Proof.
  split; [intros H; discriminate H |].
  apply (get_qkview_diagnostics_request no_json repr0 dumps0 "42" "hit" "PDF").
  intros H; discriminate H.
Defined.

(** ** C9 *)

(** C9 fails as stated: a [Content-Type] that contains
    ["application/octet-stream"] and also ["text/xml"] (two content-type
    headers, joined by httpx) hits the XML test first, and the raw body is
    returned. *)
Lemma octet_stream_with_xml_returns_body :
  fst (make_api_request no_json repr0 "GET" "/qkviews/42/files/qkview"
         "application/octet-stream" None []
         (env_answering "id" "secret" 0
            (mk_response 200 "application/octet-stream, text/xml" "RAWBYTES"))
         (st_cached 1000))
  = Ok (JObj [("xml_content", JStr "RAWBYTES")]).
Proof. reflexivity. Qed.

Lemma make_api_request_binary_witness :
  fst (make_api_request no_json repr0 "GET" "/qkviews/42/files/qkview"
         "application/octet-stream" None []
         (env_answering "id" "secret" 0
            (mk_response 200 "application/octet-stream" (bytes_of_length 1024)))
         (st_cached 1000))
  = Ok (JObj [("binary_size", JInt 1024);
              ("message", JStr "Binary content retrieved successfully")]).
Proof.
  rewrite (make_api_request_binary no_json repr0
             (env_answering "id" "secret" 0
                (mk_response 200 "application/octet-stream" (bytes_of_length 1024)))
             (st_cached 1000) (st_cached 1000) (JStr "tok")
             (mk_response 200 "application/octet-stream" (bytes_of_length 1024)));
    simpl; try reflexivity; lia.
Defined.

(** ** C10 witness *)

Lemma upload_qkview_missing_file_witness :
  upload_qkview no_json repr0 dumps0 "/tmp/missing.qkview" "" "true" "" "false"
    (env_token_ok (mk_response 200 "" "")) st_init
  = (Ok "Error: File not found: /tmp/missing.qkview", st_init).
Proof.
  apply (upload_qkview_missing_file no_json repr0 dumps0
           (env_token_ok (mk_response 200 "" "")) st_init
           "/tmp/missing.qkview" "" "true" "" "false").
  - intros H; discriminate H.
  - reflexivity.
Defined.

(** * Witnesses of the further properties *)

Lemma validate_credentials_missing_witness :
  validate_credentials no_json (env_answering "" "" 0 (mk_response 200 "" "")) st_init
  = (Ok ("Error: F5_IHEALTH_CLIENT_ID and F5_IHEALTH_CLIENT_SECRET environment variables are required"), st_init).
Proof.
  apply (validate_credentials_missing no_json
           (env_answering "" "" 0 (mk_response 200 "" "")) st_init).
  - intros [H _]; discriminate H.
  - left; reflexivity.
Defined.

Lemma validate_credentials_cached_witness :
  validate_credentials no_json (env_answering "id" "secret" 0 (mk_response 200 "" ""))
    (st_cached 1000)
  = (Ok "Success: F5 iHealth API credentials are valid and authentication successful.",
     st_cached 1000).
Proof.
  apply (validate_credentials_cached no_json
           (env_answering "id" "secret" 0 (mk_response 200 "" "")) (st_cached 1000));
    simpl; [reflexivity | lia].
Defined.

Lemma other_required_parameters_witness :
  get_command_output no_json repr0 dumps0 "42" "" (env_with 0 token_reply_ok (HFail "")) st_init
  = (Ok "Error: command_name parameter is required", st_init).
Proof.
  refine (proj1 (proj2 (proj2 (other_required_parameters no_json repr0 dumps0
            (env_with 0 token_reply_ok (HFail "")) st_init "42" "d" "v" "c" "s" "n" _)))).
  intros H; discriminate H.
Defined.

Lemma make_api_request_transport_error_witness :
  fst (make_api_request no_json repr0 "GET" "/qkviews" "" None []
         (env_with 0 token_reply_ok (HFail "timed out")) (st_cached 1000))
  = Ok (JObj [("error", JStr "API request failed: timed out")]).
Proof.
  apply (make_api_request_transport_error no_json repr0 dumps0
           (env_with 0 token_reply_ok (HFail "timed out")) (st_cached 1000) (st_cached 1000)
           (JStr "tok") "timed out" "GET" "/qkviews" "" None []);
    reflexivity.
Defined.

Lemma make_api_request_json_witness :
  fst (make_api_request loads_token repr0 "GET" "/qkviews" "" None []
         (env_with 0 token_reply_ok
            (HResp (mk_response 200 "application/vnd.f5.ihealth.api+json" "access_token=tok")))
         (st_cached 1000))
  = Ok (JObj [("access_token", JStr "tok"); ("expires_in", JInt 1800)]).
Proof.
  apply (make_api_request_json loads_token repr0
           (env_with 0 token_reply_ok
              (HResp (mk_response 200 "application/vnd.f5.ihealth.api+json" "access_token=tok")))
           (st_cached 1000) (st_cached 1000) (JStr "tok")
           (mk_response 200 "application/vnd.f5.ihealth.api+json" "access_token=tok"));
    simpl; try reflexivity; lia.
Defined.

Lemma make_api_request_other_content_witness :
  fst (make_api_request no_json repr0 "GET" "/qkviews/42/files/abc" "text/csv" None []
         (env_with 0 token_reply_ok (HResp (mk_response 200 "text/csv" "a,b")))
         (st_cached 1000))
  = Ok (JObj [("content", JStr "a,b")]).
Proof.
  apply (make_api_request_other_content no_json repr0
           (env_with 0 token_reply_ok (HResp (mk_response 200 "text/csv" "a,b")))
           (st_cached 1000) (st_cached 1000) (JStr "tok") (mk_response 200 "text/csv" "a,b"));
    simpl; try reflexivity; lia.
Defined.

Lemma make_api_request_sends_witness :
  exists rq,
    snd (make_api_request no_json repr0 "put" "/qkviews/42" "" (Some [("description", "x")]) []
           (env_with 0 token_reply_ok (HResp (mk_response 200 "" ""))) (st_cached 1000))
      = mk_st (JStr "tok") 1000 [NApi rq] /\
    rq_method rq = "PUT" /\
    rq_url rq = "https://ihealth2-api.f5.com/qkview-analyzer/api/qkviews/42" /\
    rq_authorization rq = "Bearer tok" /\
    rq_accept rq = "application/vnd.f5.ihealth.api" /\
    rq_user_agent rq = "F5iHealthMCPServer/1.0" /\
    rq_data rq = Some [("description", "x")] /\
    rq_files rq = [].
Proof.
  exact (make_api_request_sends no_json repr0
           (env_with 0 token_reply_ok (HResp (mk_response 200 "" ""))) (st_cached 1000)
           (st_cached 1000) (JStr "tok") "put" "/qkviews/42" "" (Some [("description", "x")]) []
           eq_refl eq_refl).
Defined.

Lemma token_exchange_success_witness :
  get_auth_token loads_token (env_with 5 token_reply_ok (HFail "")) st_init
  = (Ok (JStr "tok"), mk_st (JStr "tok") 1805 [NTokenPost "id:secret"]).
Proof.
  apply (token_exchange_success loads_token (env_with 5 token_reply_ok (HFail "")) st_init
           (mk_response 200 "application/json" "access_token=tok")
           [("access_token", JStr "tok"); ("expires_in", JInt 1800)] (JStr "tok") 1800).
  - intros [H _]; discriminate H.
  - intros H; discriminate H.
  - intros H; discriminate H.
  - reflexivity.
  - simpl; lia.
  - reflexivity.
  - reflexivity.
  - right; reflexivity.
Defined.

Lemma token_exchange_http_error_witness :
  get_auth_token loads_token
    (env_with 0 (HResp (mk_response 401 "application/json" "denied")) (HFail "")) st_init
  = (Exc (ValueError "Authentication failed: 401"), mk_st JNull 0 [NTokenPost "id:secret"]).
Proof.
  apply (token_exchange_http_error loads_token
           (env_with 0 (HResp (mk_response 401 "application/json" "denied")) (HFail ""))
           st_init (mk_response 401 "application/json" "denied")).
  - intros [H _]; discriminate H.
  - intros H; discriminate H.
  - intros H; discriminate H.
  - reflexivity.
  - simpl; lia.
Defined.

Lemma token_exchange_transport_error_witness :
  get_auth_token loads_token (env_with 0 (HFail "connection refused") (HFail "")) st_init
  = (Exc (ValueError "Authentication failed: connection refused"),
     mk_st JNull 0 [NTokenPost "id:secret"]).
Proof.
  apply (token_exchange_transport_error loads_token
           (env_with 0 (HFail "connection refused") (HFail "")) st_init "connection refused").
  - intros [H _]; discriminate H.
  - intros H; discriminate H.
  - intros H; discriminate H.
  - reflexivity.
Defined.

Lemma token_exchange_bad_expiry_keeps_token_witness :
  get_auth_token loads_bad_expiry (env_with 0 token_reply_ok (HFail "")) st_init
  = (Exc (ValueError
            "Authentication failed: unsupported operand type(s) for +: 'float' and 'str'"),
     mk_st (JStr "tok") 0 [NTokenPost "id:secret"]).
Proof.
  apply (token_exchange_bad_expiry_keeps_token loads_bad_expiry
           (env_with 0 token_reply_ok (HFail "")) st_init
           (mk_response 200 "application/json" "access_token=tok")
           [("access_token", JStr "tok"); ("expires_in", JStr "1800")] (JStr "tok") "1800").
  - intros [H _]; discriminate H.
  - intros H; discriminate H.
  - intros H; discriminate H.
  - reflexivity.
  - simpl; lia.
  - reflexivity.
  - reflexivity.
  - reflexivity.
Defined.

Lemma get_auth_token_reuse_witness :
  get_auth_token loads_token (env_with 1000 (HFail "down") (HFail ""))
    (mk_st (JStr "tok") 1800 [NTokenPost "id:secret"])
  = (Ok (JStr "tok"), mk_st (JStr "tok") 1800 [NTokenPost "id:secret"]).
Proof.
  apply (get_auth_token_reuse loads_token (env_with 0 token_reply_ok (HFail ""))
           (env_with 1000 (HFail "down") (HFail "")) st_init
           (mk_st (JStr "tok") 1800 [NTokenPost "id:secret"]) (JStr "tok")).
  - reflexivity.
  - reflexivity.
  - simpl; lia.
Defined.
